(** * Message interpretation of the expense tracker webhook (src/app.py)

    Shallow embedding of [extract_amount], [detect_category],
    [format_cat], [register_partner], [get_partner], [save_expense],
    [webhook] and the totals and rows read by [dashboard].

    Text is a Python [str]: a list of Unicode code points ([list N]).
    Python's [str.lower], the regex classes [\d] and [\w] (for [\b]) are
    modelled on ASCII: [lower] maps A-Z to a-z and leaves every other
    code point unchanged, [\d] is 0-9 and a word character is an ASCII
    letter, digit or underscore.  Whitespace ([\s], [str.strip],
    [str.split]) is Python's full [str.isspace] set.  A parsed amount is
    its exact decimal value counted in hundredths (the fragments handed
    to [float] carry at most two fraction digits); binary rounding of
    [float] is not modelled. *)

From Stdlib Require Import ZArith NArith Lia.
From Stdlib Require Import Strings.String Strings.Ascii.
From stdpp Require Import base list gmap.

Open Scope N_scope.

(** ** Text *)

Definition text := list N.

(** ASCII string literal as a list of code points. *)
Fixpoint str (s : string) : text :=
  match s with
  | EmptyString => []
  | String c r => N_of_ascii c :: str r
  end.

(** U+20B9 INDIAN RUPEE SIGN. *)
Definition rupee : N := 8377.

Definition is_digit (c : N) : bool := (48 <=? c) && (c <=? 57).

Definition is_alpha (c : N) : bool :=
  ((65 <=? c) && (c <=? 90)) || ((97 <=? c) && (c <=? 122)).

(** [\w]: letters, digits and underscore. *)
Definition is_word (c : N) : bool := is_alpha c || is_digit c || (c =? 95).

(** [str.isspace] / regex [\s]. *)
Definition is_space (c : N) : bool :=
  ((9 <=? c) && (c <=? 13)) || ((28 <=? c) && (c <=? 32))
  || (c =? 133) || (c =? 160) || (c =? 5760)
  || ((8192 <=? c) && (c <=? 8202))
  || (c =? 8232) || (c =? 8233) || (c =? 8239) || (c =? 8287)
  || (c =? 12288).

(** [str.lower] on ASCII. *)
Definition lower_char (c : N) : N :=
  if (65 <=? c) && (c <=? 90) then c + 32 else c.

Definition lower (s : text) : text := map lower_char s.

Fixpoint starts_with (p s : text) : bool :=
  match p, s with
  | [], _ => true
  | x :: p', y :: s' => (x =? y) && starts_with p' s'
  | _ :: _, [] => false
  end.

(** Python [kw in s]. *)
Fixpoint contains (kw s : text) : bool :=
  starts_with kw s ||
  match s with
  | [] => false
  | _ :: s' => contains kw s'
  end.

Fixpoint lstrip (s : text) : text :=
  match s with
  | c :: s' => if is_space c then lstrip s' else s
  | [] => []
  end.

(** [str.strip()]. *)
Definition strip (s : text) : text := rev (lstrip (rev (lstrip s))).

(** [str.split(maxsplit=1)] (CPython's whitespace split with one cut):
    skip leading whitespace, take one token, skip whitespace, and keep
    the remainder as it is. *)
Fixpoint split_token (s : text) : text * text :=
  match s with
  | c :: s' => if is_space c then ([], s)
               else let '(t, r) := split_token s' in (c :: t, r)
  | [] => ([], [])
  end.

Definition split_max1 (s : text) : list text :=
  match lstrip s with
  | [] => []
  | s1 =>
      let '(tok, r) := split_token s1 in
      match lstrip r with
      | [] => [tok]
      | rest => [tok; rest]
      end
  end.

(** [s.replace(pat, '')] for a non-empty [pat]: occurrences removed left
    to right without overlap. *)
Fixpoint remove_all_go (fuel : nat) (pat s : text) : text :=
  match fuel with
  | O => s
  | S fuel' =>
      match s with
      | [] => []
      | c :: s' =>
          if starts_with pat s then remove_all_go fuel' pat (drop (length pat) s)
          else c :: remove_all_go fuel' pat s'
      end
  end.

Definition remove_all (pat s : text) : text := remove_all_go (length s) pat s.

(** ** Regular expressions of [extract_amount]

    The constructs the five patterns use, matched by backtracking in the
    order of Python's [re] engine: greedy repetition tries the longest
    run first, [?] tries its operand first, alternation tries the left
    branch first.  The match state is a zipper (consumed text reversed,
    remaining text) so that [\b] sees the previous code point; the
    capture of group 1 is carried along. *)

Inductive regex :=
| RChar (c : N)
| RClass (p : N -> bool)
| RStar (p : N -> bool)
| RSeq (r1 r2 : regex)
| RAlt (r1 r2 : regex)
| ROpt (r : regex)
| RGroup (r : regex)
| RBound.

Record mstate := MState { before : text; rest : text; cap : option text }.

Definition RPlus (p : N -> bool) : regex := RSeq (RClass p) (RStar p).

Definition at_boundary (st : mstate) : bool :=
  let w1 := match before st with c :: _ => is_word c | [] => false end in
  let w2 := match rest st with c :: _ => is_word c | [] => false end in
  negb (Bool.eqb w1 w2).

(** Greedy [p*]: consume as long a run as possible, then give back one
    code point at a time. *)
Fixpoint star (p : N -> bool) (bf rs : text) (cp : option text)
  (k : mstate -> option (option text)) : option (option text) :=
  match rs with
  | c :: rs' =>
      if p c then
        match star p (c :: bf) rs' cp k with
        | Some g => Some g
        | None => k (MState bf rs cp)
        end
      else k (MState bf rs cp)
  | [] => k (MState bf rs cp)
  end.

Fixpoint mt (r : regex) (st : mstate) (k : mstate -> option (option text))
  : option (option text) :=
  match r with
  | RChar c =>
      match rest st with
      | x :: xs => if x =? c then k (MState (x :: before st) xs (cap st)) else None
      | [] => None
      end
  | RClass p =>
      match rest st with
      | x :: xs => if p x then k (MState (x :: before st) xs (cap st)) else None
      | [] => None
      end
  | RStar p => star p (before st) (rest st) (cap st) k
  | RSeq a b => mt a st (fun st' => mt b st' k)
  | RAlt a b =>
      match mt a st k with
      | Some g => Some g
      | None => mt b st k
      end
  | ROpt a =>
      match mt a st k with
      | Some g => Some g
      | None => k st
      end
  | RGroup a =>
      let start := rest st in
      mt a st (fun st' =>
        k (MState (before st') (rest st')
                  (Some (take (length start - length (rest st'))%nat start))))
  | RBound => if at_boundary st then k st else None
  end.

(** [re.search(p, s)]: the leftmost start position with a match; the
    result is [m.group(1)] ([None] inside when the group did not take
    part). *)
Fixpoint search_go (r : regex) (bf rs : text) : option (option text) :=
  match mt r (MState bf rs None) (fun st => Some (cap st)) with
  | Some g => Some g
  | None =>
      match rs with
      | [] => None
      | c :: rs' => search_go r (c :: bf) rs'
      end
  end.

Definition search (r : regex) (s : text) : option (option text) := search_go r [] s.

Fixpoint lits (s : text) : regex :=
  match s with
  | [] => ROpt (RClass (fun _ => false))
  | [c] => RChar c
  | c :: s' => RSeq (RChar c) (lits s')
  end.

Definition is_dc (c : N) : bool := is_digit c || (c =? 44).

(** [[\d,]+(?:\.\d{2})?] *)
Definition amount_re : regex :=
  RGroup (RSeq (RPlus is_dc)
                (ROpt (RSeq (RChar 46) (RSeq (RClass is_digit) (RClass is_digit))))).

(** [r'U+20B9\s*([\d,]+(?:\.\d{2})?)'] *)
Definition pat_symbol : regex := RSeq (RChar rupee) (RSeq (RStar is_space) amount_re).
(** [r'rs\.?\s*([\d,]+(?:\.\d{2})?)'] *)
Definition pat_rs : regex :=
  RSeq (lits (str "rs")) (RSeq (ROpt (RChar 46)) (RSeq (RStar is_space) amount_re)).
(** [r'inr\s*([\d,]+(?:\.\d{2})?)'] *)
Definition pat_inr : regex := RSeq (lits (str "inr")) (RSeq (RStar is_space) amount_re).
(** [r'([\d,]+(?:\.\d{2})?)\s*(?:rs|rupees|inr|U+20B9)'] *)
Definition pat_suffix : regex :=
  RSeq amount_re
    (RSeq (RStar is_space)
       (RAlt (lits (str "rs")) (RAlt (lits (str "rupees"))
          (RAlt (lits (str "inr")) (RChar rupee))))).
(** [r'\b([\d,]+)\b'] *)
Definition pat_bare : regex := RSeq RBound (RSeq (RGroup (RPlus is_dc)) RBound).

Definition patterns : list regex := [pat_symbol; pat_rs; pat_inr; pat_suffix; pat_bare].

(** ** [float(g.replace(',', ''))] *)

Definition remove_commas (s : text) : text := filter (fun c => negb (c =? 44)) s.

Fixpoint digits_value (acc : N) (s : text) : N :=
  match s with
  | [] => acc
  | c :: s' => digits_value (acc * 10 + (c - 48)) s'
  end.

(** Two fraction digits as hundredths (missing digits count as 0). *)
Definition frac_hundredths (f : text) : N :=
  match f with
  | [] => 0
  | [d1] => (d1 - 48) * 10
  | d1 :: d2 :: _ => (d1 - 48) * 10 + (d2 - 48)
  end.

Fixpoint span_digits (s : text) : text * text :=
  match s with
  | c :: s' => if is_digit c then let '(d, r) := span_digits s' in (c :: d, r)
               else ([], s)
  | [] => ([], [])
  end.

(** Python [float] on a string of digits and points: [digits], [digits.],
    [digits.digits] or [.digits]; anything else (the empty string
    among others) raises [ValueError], here [None].  The value is in
    hundredths. *)
Definition py_float (s : text) : option N :=
  let '(ip, r) := span_digits s in
  match r with
  | [] => match ip with [] => None | _ => Some (digits_value 0 ip * 100) end
  | c :: f =>
      if (c =? 46) && forallb is_digit f && negb (bool_decide (ip = [] /\ f = []))
      then Some (digits_value 0 ip * 100 + frac_hundredths f)
      else None
  end.

(** [extract_amount]: first pattern whose match converts wins; a failed
    conversion ([except: continue]) moves on to the next pattern. *)
Fixpoint try_patterns (ps : list regex) (s : text) : option N :=
  match ps with
  | [] => None
  | p :: ps' =>
      match search p s with
      | Some (Some g) =>
          match py_float (remove_commas g) with
          | Some v => Some v
          | None => try_patterns ps' s
          end
      | _ => try_patterns ps' s
      end
  end.

Definition extract_amount (msg : text) : option N := try_patterns patterns (lower msg).

(** ** [CATEGORIES] and [detect_category]

    The dict literal, in its insertion order (the iteration order of a
    Python 3.7+ dict). *)

Definition CATEGORIES : list (string * list string) :=
  [("rent", ["rent"; "rental"; "office rent"; "shop rent"; "lease"]);
   ("travel", ["travel"; "auto"; "cab"; "uber"; "ola"; "fuel"; "petrol"; "diesel";
               "ticket"; "train"; "bus"; "flight"; "metro"]);
   ("food", ["food"; "lunch"; "dinner"; "breakfast"; "tea"; "coffee"; "snacks";
             "meal"; "restaurant"; "hotel"; "eating"; "tiffin"]);
   ("partner_loan", ["loan"; "lent"; "lending"; "borrowed"; "gave to company";
                     "lent to company"; "partner loan"; "personal money"]);
   ("business_purchase", ["stock"; "inventory"; "purchase"; "bought"; "product";
                          "goods"; "material"; "supplies"; "wholesale"]);
   ("client_acquisition", ["client"; "customer"; "acquisition"; "gift"; "meeting";
                           "commission"; "marketing"; "promotion";
                           "business development"])]%string.

(** [for kw in keywords: if kw in msg: return cat] *)
Fixpoint scan_keywords (kws : list string) (msg : text) : bool :=
  match kws with
  | [] => false
  | kw :: kws' => if contains (str kw) msg then true else scan_keywords kws' msg
  end.

Fixpoint scan_categories (cats : list (string * list string)) (msg : text) : string :=
  match cats with
  | [] => "uncategorized"%string
  | (cat, kws) :: cats' =>
      if scan_keywords kws msg then cat else scan_categories cats' msg
  end.

Definition detect_category (msg : text) : string :=
  scan_categories CATEGORIES (lower msg).

(** ** Storage

    The two SQLite tables.  [partners] has [phone] as its UNIQUE key, so
    the table is a map from phone to name; [expenses] rows are kept in
    insertion order with the AUTOINCREMENT id they received. *)

Record expense := Expense {
  e_id : N; e_amount : N; e_category : string; e_description : text;
  e_partner_name : text; e_partner_phone : text }.

Record db := DB {
  partners : gmap text text;
  expenses : list expense;
  next_id : N }.

(** [get_partner]: [SELECT name FROM partners WHERE phone=?]. *)
Definition get_partner (d : db) (phone : text) : option text := partners d !! phone.

(** [register_partner]: [INSERT OR REPLACE] keyed by the UNIQUE phone,
    committed, [True]. *)
Definition register_partner (d : db) (phone name : text) : bool * db :=
  (true, DB (<[phone := name]> (partners d)) (expenses d) (next_id d)).

(** [save_expense]: the row is inserted and [lastrowid] returned. *)
Definition save_expense (d : db) (amount : N) (category : string)
  (description partner_name partner_phone : text) : N * db :=
  let eid := next_id d in
  (eid, DB (partners d)
           (expenses d ++ [Expense eid amount category description partner_name partner_phone])
           (eid + 1)).

(** ** [webhook]

    One reply per branch of the handler. *)

Inductive reply :=
| Welcome (name : text)                     (* "Welcome {name}! You are registered." *)
| RegistrationFailed                        (* "Registration failed. Try again." *)
| RegisterUsage                             (* "Please send: register YourName" *)
| PleaseRegister                            (* "Welcome! Please register first" *)
| NoAmount                                  (* "Could not find amount." *)
| Recorded (eid : N) (amount : N) (category : string) (partner : text).

(** Python truthiness of [partner] (a name or [None]). *)
Definition truthy_text (o : option text) : option text :=
  match o with
  | Some ((_ :: _) as n) => Some n
  | _ => None
  end.

(** [body] is [request.values.get('Body', '')], [from] is
    [request.values.get('From', '')]. *)
Definition webhook (d : db) (body from : text) : reply * db :=
  let msg := strip body in
  let sender := remove_all (str "whatsapp:") from in
  if starts_with (str "register") (lower msg) then
    match split_max1 msg with
    | _ :: p1 :: _ =>
        let name := strip p1 in
        let '(ok, d') := register_partner d sender name in
        if ok then (Welcome name, d') else (RegistrationFailed, d')
    | _ => (RegisterUsage, d)
    end
  else
    match truthy_text (get_partner d sender) with
    | None => (PleaseRegister, d)
    | Some partner =>
        match extract_amount msg with
        | None => (NoAmount, d)
        | Some amount =>
            if amount =? 0 then (NoAmount, d)
            else
              let category := detect_category msg in
              let '(eid, d') := save_expense d amount category msg partner sender in
              (Recorded eid amount category partner, d')
        end
    end.

Definition empty_db : db := DB ∅ [] 1.

(** A registry in which the sender [+911] is the partner [Asha]. *)
Definition asha_db : db := DB (<[str "+911" := str "Asha"]> ∅) [] 1.

(** ** [format_cat]: [cat.replace('_', ' ').title()]

    [str.title] upper-cases a letter that follows no cased character and
    lower-cases one that follows a cased character (on ASCII, the cased
    characters are the letters). *)

Definition upper_char (c : N) : N :=
  if (97 <=? c) && (c <=? 122) then c - 32 else c.

Fixpoint title_go (prev_cased : bool) (s : text) : text :=
  match s with
  | [] => []
  | c :: s' =>
      (if prev_cased then lower_char c else upper_char c) :: title_go (is_alpha c) s'
  end.

Definition title (s : text) : text := title_go false s.

Definition underscores_to_spaces (s : text) : text :=
  map (fun c => if c =? 95 then 32 else c) s.

Definition format_cat (cat : text) : text := title (underscores_to_spaces cat).

(** ** [dashboard] queries

    [SELECT SUM(amount) FROM expenses] is NULL on an empty table; the
    handler turns a NULL (or zero) total into 0.  [SELECT category,
    SUM(amount) ... GROUP BY category] gives one row per category present;
    the order of the groups is left to SQLite, so [by_category] takes the
    enumeration of the groups as an argument. *)






(** One row of the dashboard table: amount, category, label,
    [description or ''] and [partner_name or 'Unknown']. *)
Definition dashboard_row (e : expense) : N * string * text * text * text :=
  (e_amount e, e_category e, format_cat (str (e_category e)), e_description e,
   match e_partner_name e with [] => str "Unknown" | n => n end).

(** ** Stores produced by the webhook

    The tables start empty ([init_db] on a fresh file) and only
    [webhook] writes to them. *)
Inductive reachable : db -> Prop :=
| reachable_empty : reachable empty_db
| reachable_step (d : db) (body from : text) :
    reachable d -> reachable (snd (webhook d body from)).

(** What every stored expense row satisfies. *)
Definition row_ok (e : expense) : Prop :=
  0 < e_amount e /\
  In (e_category e) (map fst CATEGORIES ++ ["uncategorized"%string]) /\
  e_partner_name e <> [] /\ e_description e <> [].

(** A store after registering [Asha] and recording one expense. *)
Definition two_step_db : db :=
  snd (webhook (snd (webhook empty_db (str "register Asha") (str "whatsapp:+911")))
               (str "Paid 500 rent") (str "whatsapp:+911")).

(** * Properties *)

(** ** Amount extraction *)

(** C5: [extract("₹5,000")], [extract("Rs.5000")], [extract("5000 rs")] and
    [extract("INR 5000")] are all 5000 (500000 hundredths): separators
    stripped, markers matched case-insensitively; [extract("no numbers here")]
    is absent. *)
Theorem extract_examples :
  extract_amount (rupee :: str "5,000") = Some 500000 /\
  extract_amount (str "Rs.5000") = Some 500000 /\
  extract_amount (str "5000 rs") = Some 500000 /\
  extract_amount (str "INR 5000") = Some 500000 /\
  extract_amount (str "no numbers here") = None.
Proof. vm_compute. repeat split. Qed.

(** C2 (code evaluation): the bare-number rule [\b([\d,]+)\b] has no
    fraction, so on "paid 12.50" extract yields 12 (1200 hundredths), not
    12.50. *)
Theorem extract_bare_drops_fraction :
  extract_amount (str "paid 12.50") = Some 1200.
Proof. vm_compute. reflexivity. Qed.

(** C4 (code evaluation): "Room 12, paid rs 500" yields 500, but in
    "Worked 2 hours 30 mins, paid 500 rupees" the rs rule fires inside
    "hours" and the result is 30, not the rupee-marked 500. *)
Theorem extract_priority_hours :
  extract_amount (str "Room 12, paid rs 500") = Some 50000 /\
  extract_amount (str "Worked 2 hours 30 mins, paid 500 rupees") = Some 3000.
Proof. vm_compute. split; reflexivity. Qed.

(** ** Router *)

(** C1 (code evaluation): for the registered sender [+911], "paid 0 rent"
    has the amount 0 according to the extractor, yet [if not amount] sends
    the "Could not find amount" reply and nothing is recorded. *)
Theorem webhook_zero_amount :
  extract_amount (str "paid 0 rent") = Some 0 /\
  webhook asha_db (str "paid 0 rent") (str "whatsapp:+911") = (NoAmount, asha_db).
Proof. vm_compute. split; reflexivity. Qed.

(** C8: a sender with no partner row whose message is not a registration
    command gets the "please register first" reply and the store is left
    as it is, whatever amount the text contains. *)
Theorem webhook_unregistered (d : db) (body from : text) :
  starts_with (str "register") (lower (strip body)) = false ->
  get_partner d (remove_all (str "whatsapp:") from) = None ->
  webhook d body from = (PleaseRegister, d).
Proof.
  intros Hreg Hnone. unfold webhook. cbv zeta.
  rewrite Hreg, Hnone. reflexivity.
Qed.

Lemma webhook_unregistered_witness :
  webhook empty_db (str "Paid 500 rent") (str "whatsapp:+911") = (PleaseRegister, empty_db).
Proof. apply webhook_unregistered; vm_compute; reflexivity. Defined.

(** C9: a message whose trimmed, lowercased text starts with "register"
    only ever gets one of the three registration replies, records no
    expense, and its reply does not depend on the registry contents (the
    prefix test comes before [get_partner]). *)
Theorem webhook_register_first (d : db) (body from : text) :
  starts_with (str "register") (lower (strip body)) = true ->
  (fst (webhook d body from) = RegisterUsage \/
   fst (webhook d body from) = RegistrationFailed \/
   exists name, fst (webhook d body from) = Welcome name) /\
  expenses (snd (webhook d body from)) = expenses d /\
  (forall d2 : db, fst (webhook d2 body from) = fst (webhook d body from)).
Proof.
  intros Hreg. unfold webhook. cbv zeta. rewrite Hreg.
  destruct (split_max1 (strip body)) as [|t0 [|t1 ts]]; simpl;
    (split; [eauto | split; [reflexivity | intros; reflexivity]]).
Qed.

Lemma webhook_register_first_witness :
  fst (webhook asha_db (str "Register 500 rent") (str "whatsapp:+911"))
    = Welcome (str "500 rent").
Proof.
  destruct (webhook_register_first asha_db (str "Register 500 rent")
              (str "whatsapp:+911") eq_refl) as [_ [_ Hd]].
  rewrite <- (Hd empty_db). vm_compute. reflexivity.
Defined.

(** C3 (as the code has it): a recorded expense row carries as description
    the whole message after [strip()], not only the matched substring. *)
Theorem webhook_recorded_description (d d' : db) (body from : text)
  (eid amount : N) (category : string) (partner : text) :
  webhook d body from = (Recorded eid amount category partner, d') ->
  expenses d' = expenses d ++
    [Expense eid amount category (strip body) partner (remove_all (str "whatsapp:") from)].
Proof.
  unfold webhook. cbv zeta.
  destruct (starts_with _ _).
  - destruct (split_max1 (strip body)) as [|t0 [|t1 ts]]; simpl; congruence.
  - destruct (truthy_text _) as [p|]; [|congruence].
    destruct (extract_amount (strip body)) as [a|]; [|congruence].
    destruct (a =? 0); [congruence|].
    simpl. intros H. inversion H. subst. reflexivity.
Qed.

Lemma webhook_recorded_description_witness :
  expenses (snd (webhook asha_db (str " Paid 500 rent ") (str "whatsapp:+911")))
  = expenses asha_db ++
    [Expense 1 50000 "rent" (strip (str " Paid 500 rent ")) (str "Asha")
             (remove_all (str "whatsapp:") (str "whatsapp:+911"))].
Proof.
  apply (webhook_recorded_description asha_db
           (snd (webhook asha_db (str " Paid 500 rent ") (str "whatsapp:+911")))
           _ _ 1 50000 "rent" (str "Asha")).
  vm_compute. reflexivity.
Defined.

(** C3 counterexample: with a leading space in the Body the stored
    description is not the raw body. *)
Lemma webhook_description_not_raw :
  map e_description (expenses (snd (webhook asha_db (str " Paid 500 rent") (str "whatsapp:+911"))))
  = [str "Paid 500 rent"] /\
  str "Paid 500 rent" <> str " Paid 500 rent".
Proof. vm_compute. split; [reflexivity | discriminate]. Qed.

(** ** Category classification *)

Lemma scan_keywords_true (kws : list string) (msg : text) :
  scan_keywords kws msg = true <-> exists kw, In kw kws /\ contains (str kw) msg = true.
Proof.
  induction kws as [|kw kws IH]; simpl.
  - split; [discriminate | intros (kw & [] & _)].
  - destruct (contains (str kw) msg) eqn:Hc.
    + split; [intros _; exists kw; auto | reflexivity].
    + rewrite IH. split.
      * intros (kw' & Hin & Hk). exists kw'. auto.
      * intros (kw' & [<-|Hin] & Hk); [congruence | eauto].
Qed.

Lemma scan_keywords_false (kws : list string) (msg : text) :
  (forall kw, In kw kws -> contains (str kw) msg = false) ->
  scan_keywords kws msg = false.
Proof.
  intros H. destruct (scan_keywords kws msg) eqn:E; [|reflexivity].
  apply scan_keywords_true in E as (kw & Hin & Hk). rewrite (H kw Hin) in Hk.
  discriminate.
Qed.

Lemma scan_categories_app (pre post : list (string * list string)) (c : string)
  (kws : list string) (msg : text) :
  scan_keywords kws msg = true ->
  (forall c' kws', In (c', kws') pre -> scan_keywords kws' msg = false) ->
  scan_categories (pre ++ (c, kws) :: post) msg = c.
Proof.
  induction pre as [|[c0 k0] pre IH]; simpl; intros Hk Hpre.
  - rewrite Hk. reflexivity.
  - rewrite (Hpre c0 k0 (or_introl eq_refl)).
    apply IH; [exact Hk | intros c' kws' Hin; apply (Hpre c' kws'); right; exact Hin].
Qed.

Lemma scan_categories_none (cats : list (string * list string)) (msg : text) :
  (forall c kws, In (c, kws) cats -> scan_keywords kws msg = false) ->
  scan_categories cats msg = "uncategorized"%string.
Proof.
  induction cats as [|[c0 k0] cats IH]; simpl; intros H; [reflexivity|].
  rewrite (H c0 k0 (or_introl eq_refl)).
  apply IH. intros c kws Hin. apply (H c kws). right. exact Hin.
Qed.

(** C6: [detect_category] returns the first category, in the order rent,
    travel, food, partner_loan, business_purchase, client_acquisition, one
    of whose keywords occurs in the lowercased text, and "uncategorized"
    when none does; "Paid 5000 rent" is rent, "Client dinner meeting" is
    food, "xyz" is uncategorized. *)
Theorem detect_category_first_match :
  (forall (t : text) pre c kws post,
     CATEGORIES = pre ++ (c, kws) :: post ->
     (exists kw, In kw kws /\ contains (str kw) (lower t) = true) ->
     (forall c' kws' kw, In (c', kws') pre -> In kw kws' ->
        contains (str kw) (lower t) = false) ->
     detect_category t = c) /\
  (forall t : text,
     (forall c kws kw, In (c, kws) CATEGORIES -> In kw kws ->
        contains (str kw) (lower t) = false) ->
     detect_category t = "uncategorized"%string) /\
  map fst CATEGORIES = ["rent"; "travel"; "food"; "partner_loan";
                        "business_purchase"; "client_acquisition"]%string /\
  detect_category (str "Paid 5000 rent") = "rent"%string /\
  detect_category (str "Client dinner meeting") = "food"%string /\
  detect_category (str "xyz") = "uncategorized"%string.
Proof.
  split; [|split; [|split; [reflexivity | vm_compute; repeat split]]].
  - intros t pre c kws post Hcat Hkw Hpre. unfold detect_category. rewrite Hcat.
    apply scan_categories_app.
    + apply scan_keywords_true. exact Hkw.
    + intros c' kws' Hin. apply scan_keywords_false. eauto.
  - intros t H. unfold detect_category. apply scan_categories_none.
    intros c kws Hin. apply scan_keywords_false. eauto.
Qed.

Lemma detect_category_first_match_witness :
  detect_category (str "Client dinner meeting") = "food"%string.
Proof.
  apply (proj1 detect_category_first_match (str "Client dinner meeting")
           (firstn 2 CATEGORIES) "food"%string (snd (nth 2 CATEGORIES (EmptyString, [])))
           (skipn 3 CATEGORIES)).
  - reflexivity.
  - exists "dinner"%string. split; [simpl; tauto | vm_compute; reflexivity].
  - intros c' kws' kw Hin Hkw. simpl in Hin.
    destruct Hin as [[= <- <-]|[[= <- <-]|[]]]; simpl in Hkw;
      repeat (destruct Hkw as [<-|Hkw]; [vm_compute; reflexivity|]); destruct Hkw.
Defined.

(** ** Registration *)

Lemma lstrip_shape (s : text) :
  lstrip s = [] \/ exists c s', lstrip s = c :: s' /\ is_space c = false.
Proof.
  induction s as [|c s IH]; simpl; [auto|].
  destruct (is_space c) eqn:E; [exact IH | right; eauto].
Qed.

Lemma lstrip_nil_spaces (s : text) :
  lstrip s = [] -> forall x, In x s -> is_space x = true.
Proof.
  induction s as [|c s IH]; simpl; [tauto|].
  destruct (is_space c) eqn:E; [|discriminate].
  intros H x [<-|Hin]; auto.
Qed.

Lemma lstrip_idem (s : text) : lstrip (lstrip s) = lstrip s.
Proof.
  induction s as [|c s IH]; simpl; [reflexivity|].
  destruct (is_space c) eqn:E; [exact IH | simpl; rewrite E; reflexivity].
Qed.

Lemma strip_lstrip (s : text) : strip (lstrip s) = strip s.
Proof. unfold strip. rewrite lstrip_idem. reflexivity. Qed.

Lemma split_token_app (w r : text) (c : N) :
  (forall x, In x w -> is_space x = false) -> is_space c = true ->
  split_token (w ++ c :: r) = (w, c :: r).
Proof.
  intros Hw Hc. induction w as [|x w IH]; simpl.
  - rewrite Hc. reflexivity.
  - rewrite (Hw x (or_introl eq_refl)).
    rewrite IH; [reflexivity | intros y Hy; apply Hw; right; exact Hy].
Qed.

Lemma split_token_word (w : text) :
  (forall x, In x w -> is_space x = false) -> split_token w = (w, []).
Proof.
  induction w as [|x w IH]; simpl; intros Hw; [reflexivity|].
  rewrite (Hw x (or_introl eq_refl)).
  rewrite IH; [reflexivity | intros y Hy; apply Hw; right; exact Hy].
Qed.

(** A message of the registration branch starts with 'r' or 'R'. *)
Lemma register_head (msg : text) :
  starts_with (str "register") (lower msg) = true ->
  exists c m, msg = c :: m /\ is_space c = false.
Proof.
  destruct msg as [|c m]; [discriminate|].
  intros H. exists c, m.
  change ((114 =? lower_char c) && starts_with (str "egister") (lower m) = true) in H. split; [reflexivity|].
  apply andb_true_iff in H as [H _]. apply N.eqb_eq in H.
  unfold lower_char in H. unfold is_space.
  destruct ((65 <=? c) && (c <=? 90)) eqn:E.
  - apply andb_true_iff in E as [E1 E2]. apply N.leb_le in E1, E2.
    repeat (apply orb_false_iff; split); try (apply N.eqb_neq; lia);
      apply andb_false_iff; try (left; apply N.leb_gt; lia); right; apply N.leb_gt; lia.
  - subst c. reflexivity.
Qed.

(** [strip] leaves no whitespace at the end. *)
Lemma strip_last_nonspace (body w r : text) (c : N) :
  strip body = w ++ c :: r -> is_space c = true -> lstrip r <> [].
Proof.
  intros Hs Hc Hr. pose proof (lstrip_nil_spaces r Hr) as Hsp.
  unfold strip in Hs.
  destruct (lstrip_shape (rev (lstrip body))) as [E | (c' & y & E & Hc')];
    rewrite E in Hs; simpl in Hs.
  - destruct w; discriminate.
  - apply (f_equal (@rev N)) in Hs. rewrite !rev_app_distr, rev_involutive in Hs.
    simpl in Hs. rewrite <- app_assoc in Hs. simpl in Hs.
    destruct (rev r) as [|x rr] eqn:Er; simpl in Hs.
    + injection Hs as <- _. congruence.
    + injection Hs as <- _. rewrite Hsp in Hc'; [discriminate|].
      apply in_rev. rewrite Er. left. reflexivity.
Qed.

(** C7 (as the code has it): in the registration branch, a message that is
    a single whitespace-free token ("register", "registerAsha") gets the
    usage reply and the registry is untouched; otherwise the text after the
    first whitespace-delimited token, trimmed, is upserted as the sender's
    name. *)
Theorem webhook_register_name (d : db) (body from : text) :
  starts_with (str "register") (lower (strip body)) = true ->
  ((forall x, In x (strip body) -> is_space x = false) ->
   webhook d body from = (RegisterUsage, d)) /\
  (forall (w : text) (c : N) (r : text),
     strip body = w ++ c :: r ->
     (forall x, In x w -> is_space x = false) -> is_space c = true ->
     webhook d body from =
       (Welcome (strip r),
        DB (<[remove_all (str "whatsapp:") from := strip r]> (partners d))
           (expenses d) (next_id d))).
Proof.
  intros Hreg.
  destruct (register_head _ Hreg) as (c0 & m & Hm & Hc0).
  assert (Hl : lstrip (strip body) = strip body) by (rewrite Hm; simpl; rewrite Hc0; reflexivity).
  split.
  - intros Hall. unfold webhook. cbv zeta. rewrite Hreg.
    unfold split_max1. rewrite Hl, Hm. rewrite <- Hm.
    rewrite (split_token_word _ Hall). reflexivity.
  - intros w c r Hs Hw Hc.
    pose proof (strip_last_nonspace body w r c Hs Hc) as Hr.
    assert (Hsplit : split_max1 (strip body) = [w; lstrip r]).
    { unfold split_max1. rewrite Hl, Hm. rewrite <- Hm, Hs.
      rewrite (split_token_app w r c Hw Hc). simpl. rewrite Hc.
      destruct (lstrip r); [congruence | reflexivity]. }
    unfold webhook. cbv zeta. rewrite Hreg, Hsplit.
    rewrite strip_lstrip. reflexivity.
Qed.

Lemma webhook_register_name_witness :
  webhook empty_db (str "register Asha") (str "whatsapp:+911") =
    (Welcome (str "Asha"), DB (<[str "+911" := str "Asha"]> ∅) [] 1).
Proof.
  apply (proj2 (webhook_register_name empty_db (str "register Asha") (str "whatsapp:+911")
                  eq_refl) (str "register") 32 (str "Asha")).
  - vm_compute. reflexivity.
  - intros x Hx. simpl in Hx. repeat (destruct Hx as [<-|Hx]; [reflexivity|]). destruct Hx.
  - reflexivity.
Defined.

(** C7 counterexample: "registered Asha" stores "Asha", not the remainder
    "ed Asha" after the command word, and "registerAsha" registers nothing
    although "Asha" follows the command word. *)
Lemma webhook_register_remainder_counter :
  webhook empty_db (str "registered Asha") (str "x") =
    (Welcome (str "Asha"), DB (<[str "x" := str "Asha"]> ∅) [] 1) /\
  strip (drop 8 (str "registered Asha")) = str "ed Asha" /\
  str "ed Asha" <> str "Asha" /\
  webhook empty_db (str "registerAsha") (str "x") = (RegisterUsage, empty_db).
Proof.
  split; [vm_compute; reflexivity|]. split; [vm_compute; reflexivity|].
  split; [discriminate | vm_compute; reflexivity].
Qed.

(** ** The rs rule and word boundaries *)

Fixpoint no_bound (r : regex) : bool :=
  match r with
  | RBound => false
  | RSeq a b | RAlt a b => no_bound a && no_bound b
  | ROpt a | RGroup a => no_bound a
  | RChar _ | RClass _ | RStar _ => true
  end.

(** A continuation that does not look at the consumed text. *)
Definition before_insensitive (k : mstate -> option (option text)) : Prop :=
  forall b1 b2 rs cp, k (MState b1 rs cp) = k (MState b2 rs cp).

Lemma star_before_insensitive (p : N -> bool) k :
  before_insensitive k ->
  forall rs b1 b2 cp, star p b1 rs cp k = star p b2 rs cp k.
Proof.
  intros Hk rs. induction rs as [|c rs IH]; intros b1 b2 cp; simpl.
  - apply Hk.
  - destruct (p c); [|apply Hk].
    rewrite (IH (c :: b1) (c :: b2)). rewrite (Hk b1 b2). reflexivity.
Qed.

(** Without [\b] a pattern's matching ignores everything before the
    current position. *)
Lemma mt_before_insensitive (r : regex) :
  no_bound r = true ->
  forall k, before_insensitive k ->
  forall b1 b2 rs cp, mt r (MState b1 rs cp) k = mt r (MState b2 rs cp) k.
Proof.
  induction r as [c|p|p|a IHa b IHb|a IHa b IHb|a IHa|a IHa|];
    simpl; intros Hnb k Hk b1 b2 rs cp.
  - destruct rs as [|x xs]; [reflexivity|]. destruct (x =? c); [apply Hk | reflexivity].
  - destruct rs as [|x xs]; [reflexivity|]. destruct (p x); [apply Hk | reflexivity].
  - apply star_before_insensitive. exact Hk.
  - apply andb_true_iff in Hnb as [Ha Hb].
    apply IHa; [exact Ha|]. intros b1' b2' rs' cp'. apply IHb; assumption.
  - apply andb_true_iff in Hnb as [Ha Hb].
    rewrite (IHa Ha k Hk b1 b2), (IHb Hb k Hk b1 b2). reflexivity.
  - rewrite (IHa Hnb k Hk b1 b2), (Hk b1 b2). reflexivity.
  - apply IHa; [exact Hnb|]. intros b1' b2' rs' cp'. simpl. apply Hk.
  - discriminate.
Qed.

Lemma lower_char_rupee (c : N) : lower_char c = rupee -> c = rupee.
Proof.
  unfold lower_char, rupee. destruct ((65 <=? c) && (c <=? 90)) eqn:E; [|auto].
  apply andb_true_iff in E as [_ E]. apply N.leb_le in E. lia.
Qed.

(** Rule 1 needs a rupee sign. *)
Lemma search_symbol_none (bf s : text) :
  ~ In rupee s -> search_go pat_symbol bf s = None.
Proof.
  revert bf. induction s as [|c s IH]; intros bf Hs; [reflexivity|].
  simpl. assert (Hc : (c =? rupee) = false).
  { apply N.eqb_neq. intros ->. apply Hs. left. reflexivity. }
  rewrite Hc. apply IH. intros Hin. apply Hs. right. exact Hin.
Qed.

(** C10 (as the code has it): the rs rule carries no word boundary, so
    whether and what it captures at a position is independent of the text
    before it (an "rs" ending "hours" counts); when rule 1 cannot apply
    (no rupee sign) the leftmost rs-rule capture that converts is the
    result, ahead of any bare number before it; "2 hours 30" gives 30. *)
Theorem extract_rs_no_boundary :
  (forall b1 b2 rs : text,
     mt pat_rs (MState b1 rs None) (fun st => Some (cap st)) =
     mt pat_rs (MState b2 rs None) (fun st => Some (cap st))) /\
  (forall (t g : text) (v : N),
     ~ In rupee t ->
     search pat_rs (lower t) = Some (Some g) ->
     py_float (remove_commas g) = Some v ->
     extract_amount t = Some v) /\
  extract_amount (str "2 hours 30") = Some 3000.
Proof.
  split; [|split].
  - intros b1 b2 rs. apply mt_before_insensitive; [reflexivity|].
    intros ? ? ? ?. reflexivity.
  - intros t g v Hno Hrs Hv.
    assert (Hsym : search pat_symbol (lower t) = None).
    { apply search_symbol_none. intros Hin. apply Hno.
      apply in_map_iff in Hin as (x & Hx & Hin).
      rewrite (lower_char_rupee x Hx) in Hin. exact Hin. }
    unfold extract_amount, patterns. cbn [try_patterns].
    rewrite Hsym, Hrs, Hv. reflexivity.
  - vm_compute. reflexivity.
Qed.

Lemma extract_rs_no_boundary_witness :
  extract_amount (str "Room 12, 3 hours 40") = Some 4000.
Proof.
  apply (proj1 (proj2 extract_rs_no_boundary) (str "Room 12, 3 hours 40") (str "40")).
  - intros Hin. simpl in Hin. repeat (destruct Hin as [Hin|Hin]; [discriminate|]). exact Hin.
  - vm_compute. reflexivity.
  - vm_compute. reflexivity.
Defined.

(** C10 counterexample: a rupee-marked amount earlier in the text wins
    over the rs rule, so the text is not resolved to the number after
    "hours". *)
Lemma extract_rs_not_always :
  extract_amount (str "Paid " ++ rupee :: str "100 for 2 hours 30") = Some 10000.
Proof. vm_compute. reflexivity. Qed.

(** * Further properties of the handler and its readers *)

(** ** The outcomes of one webhook call *)

Lemma lstrip_in (s : text) (x : N) :
  In x s -> is_space x = false -> In x (lstrip s).
Proof.
  induction s as [|c s IH]; simpl; [tauto|].
  intros Hin Hx. destruct (is_space c) eqn:E; [|exact Hin].
  destruct Hin as [<-|Hin]; [congruence | auto].
Qed.

Lemma strip_nonempty (s : text) (x : N) :
  In x s -> is_space x = false -> strip s <> [].
Proof.
  intros Hin Hx Hs. unfold strip in Hs.
  apply (f_equal (@rev N)) in Hs. rewrite rev_involutive in Hs. simpl in Hs.
  pose proof (lstrip_nil_spaces _ Hs x) as H.
  rewrite H in Hx; [discriminate|].
  apply in_rev. rewrite rev_involutive. apply lstrip_in; assumption.
Qed.

Lemma split_max1_name (s t p1 : text) (ps : list text) :
  split_max1 s = t :: p1 :: ps -> strip p1 <> [].
Proof.
  unfold split_max1. destruct (lstrip s) as [|c0 s0]; [discriminate|].
  destruct (split_token (c0 :: s0)) as [tok r].
  destruct (lstrip_shape r) as [E | (c & y & E & Hc)]; rewrite E; [discriminate|].
  intros H. injection H as _ <- _. apply (strip_nonempty _ c); [left; reflexivity | exact Hc].
Qed.

Lemma extract_amount_nil : extract_amount [] = None.
Proof. vm_compute. reflexivity. Qed.

Lemma scan_categories_in (cats : list (string * list string)) (msg : text) :
  In (scan_categories cats msg) (map fst cats ++ ["uncategorized"%string]).
Proof.
  induction cats as [|[c kws] cats IH]; simpl; [auto|].
  destruct (scan_keywords kws msg); [left; reflexivity | right; exact IH].
Qed.

Lemma truthy_text_some (o : option text) (p : text) :
  truthy_text o = Some p -> o = Some p /\ p <> [].
Proof. destruct o as [[|c n]|]; simpl; intros H; inversion H; subst; split; congruence. Qed.

(** Every call ends in one of these five ways (with the storage model,
    [register_partner] always answers [True]). *)
Lemma webhook_cases (d : db) (body from : text) :
  let msg := strip body in
  let sender := remove_all (str "whatsapp:") from in
  (starts_with (str "register") (lower msg) = true /\ exists name, name <> [] /\
     webhook d body from =
       (Welcome name, DB (<[sender := name]> (partners d)) (expenses d) (next_id d))) \/
  (starts_with (str "register") (lower msg) = true /\ webhook d body from = (RegisterUsage, d)) \/
  (starts_with (str "register") (lower msg) = false /\
     truthy_text (get_partner d sender) = None /\ webhook d body from = (PleaseRegister, d)) \/
  (starts_with (str "register") (lower msg) = false /\ webhook d body from = (NoAmount, d)) \/
  (starts_with (str "register") (lower msg) = false /\ exists amount partner,
     amount <> 0 /\ partner <> [] /\ msg <> [] /\
     get_partner d sender = Some partner /\ extract_amount msg = Some amount /\
     webhook d body from =
       (Recorded (next_id d) amount (detect_category msg) partner,
        DB (partners d)
           (expenses d ++ [Expense (next_id d) amount (detect_category msg) msg partner sender])
           (next_id d + 1))).
Proof.
  cbv zeta. unfold webhook. cbv zeta.
  destruct (starts_with _ _) eqn:Hreg.
  - destruct (split_max1 (strip body)) as [|t0 [|p1 ps]] eqn:Hs.
    + right; left; auto.
    + right; left; auto.
    + left. split; [reflexivity|]. exists (strip p1). split; [|reflexivity].
      exact (split_max1_name _ _ _ _ Hs).
  - destruct (truthy_text (get_partner d _)) as [p|] eqn:Ht.
    + apply truthy_text_some in Ht as [Hg Hp].
      destruct (extract_amount (strip body)) as [a|] eqn:Ha.
      * destruct (a =? 0) eqn:Ha0.
        -- do 3 right; left; auto.
        -- do 4 right. split; [reflexivity|]. exists a, p.
           apply N.eqb_neq in Ha0. repeat split; auto.
           intros Hm. rewrite Hm, extract_amount_nil in Ha. discriminate.
      * do 3 right; left; auto.
    + do 2 right; left; auto.
Qed.

Ltac webhook_outcome d body from :=
  let C := fresh "C" in
  pose proof (webhook_cases d body from) as C; cbv zeta in C;
  destruct C as [(Hreg & name & Hname & Hw) | [(Hreg & Hw) | [(Hreg & Hnp & Hw) |
                 [(Hreg & Hw) | (Hreg & amount & partner & Ha0 & Hp & Hm & Hg & Hx & Hw)]]]];
  rewrite Hw; simpl.

(** ** Invariants of the stored rows *)

Lemma rows_ok_of_reachable (d : db) :
  reachable d -> forall e, In e (expenses d) -> row_ok e.
Proof.
  induction 1 as [|d body from Hr IH]; [simpl; tauto|].
  webhook_outcome d body from; try exact IH.
  intros e Hin. apply in_app_iff in Hin as [Hin|[<-|[]]]; [auto|].
  unfold row_ok. cbn [e_amount e_category e_partner_name e_description].
  repeat split; [lia | apply scan_categories_in | exact Hp | exact Hm].
Qed.

(** Every expense row in a store the webhook produced has a positive
    amount, one of the seven category names, a non-empty partner name and a
    non-empty description. *)
Theorem reachable_rows_ok (d : db) :
  reachable d -> forall e, In e (expenses d) -> row_ok e.
Proof. exact (rows_ok_of_reachable d). Qed.

Lemma reachable_rows_ok_witness :
  row_ok (Expense 1 50000 "rent" (str "Paid 500 rent") (str "Asha") (str "+911")).
Proof.
  apply (reachable_rows_ok two_step_db).
  - do 2 apply reachable_step. apply reachable_empty.
  - vm_compute. left. reflexivity.
Defined.

(** Row ids (AUTOINCREMENT): every id is below [next_id], and ids grow
    strictly along the table, so no two rows share an id. *)
Theorem reachable_ids_increasing (d : db) :
  reachable d ->
  (forall e, In e (expenses d) -> e_id e < next_id d) /\
  (forall (i j : nat) (ei ej : expense),
     expenses d !! i = Some ei -> expenses d !! j = Some ej -> (i < j)%nat ->
     e_id ei < e_id ej).
Proof.
  induction 1 as [|d body from Hr [IHlt IHinc]]; [split; simpl; [tauto | intros i j ei ej Hi; discriminate]|].
  webhook_outcome d body from; try (split; assumption).
  split.
  - intros e Hin. apply in_app_iff in Hin as [Hin|[<-|[]]]; simpl; [specialize (IHlt e Hin)|]; lia.
  - intros i j ei ej Hi Hj Hij.
    pose proof (lookup_lt_Some _ _ _ Hj) as Hjl. rewrite length_app in Hjl. simpl in Hjl.
    assert (Hil : (i < length (expenses d))%nat) by lia.
    rewrite lookup_app_l in Hi by exact Hil.
    destruct (decide (j < length (expenses d))%nat) as [Hjl'|Hjl'].
    + rewrite lookup_app_l in Hj by exact Hjl'. eauto.
    + rewrite lookup_app_r in Hj by lia.
      replace (j - length (expenses d))%nat with 0%nat in Hj by lia.
      injection Hj as <-. simpl.
      apply IHlt. eapply list_elem_of_In, list_elem_of_lookup_2. exact Hi.
Qed.

Lemma reachable_ids_increasing_witness : 1 < next_id two_step_db.
Proof.
  apply (proj1 (reachable_ids_increasing two_step_db
                  (reachable_step _ _ _ (reachable_step _ _ _ reachable_empty)))
           (Expense 1 50000 "rent" (str "Paid 500 rent") (str "Asha") (str "+911"))).
  vm_compute. left. reflexivity.
Defined.

(** ** The partner registry *)

(** Every display name the webhook stores is non-empty, so a sender with a
    partner row is never asked to register: a message of theirs that is
    not a registration command either records an expense under their
    stored name or gets the no-amount reply with the store unchanged. *)
Theorem reachable_registered_sender (d : db) (body from : text) (pname : text) :
  reachable d ->
  get_partner d (remove_all (str "whatsapp:") from) = Some pname ->
  starts_with (str "register") (lower (strip body)) = false ->
  pname <> [] /\
  (webhook d body from = (NoAmount, d) \/
   exists eid amount category d',
     webhook d body from = (Recorded eid amount category pname, d')).
Proof.
  intros Hr. revert body from pname.
  assert (Hnames : forall k n, partners d !! k = Some n -> n <> []).
  { induction Hr as [|d body from Hr IH]; [intros k n Hk; discriminate|].
    webhook_outcome d body from; try exact IH.
    intros k n Hk. destruct (decide (k = remove_all (str "whatsapp:") from)) as [->|Hne].
    - rewrite lookup_insert_eq in Hk. injection Hk as <-. exact Hname.
    - rewrite lookup_insert_ne in Hk; [eauto | intros Heq; apply Hne; subst; reflexivity]. }
  intros body from pname Hgp Hnr. split; [exact (Hnames _ _ Hgp)|].
  webhook_outcome d body from; try congruence.
  - unfold get_partner in Hgp, Hnp. rewrite Hgp in Hnp.
    destruct pname; [exfalso; exact (Hnames _ _ Hgp eq_refl) | discriminate].
  - left. reflexivity.
  - right. rewrite Hgp in Hg. injection Hg as <-. eauto.
Qed.

Lemma reachable_registered_sender_witness :
  webhook two_step_db (str "Lunch 300") (str "whatsapp:+911") = (NoAmount, two_step_db) \/
  exists eid amount category d',
    webhook two_step_db (str "Lunch 300") (str "whatsapp:+911") =
      (Recorded eid amount category (str "Asha"), d').
Proof.
  apply (reachable_registered_sender two_step_db (str "Lunch 300") (str "whatsapp:+911")
           (str "Asha")).
  - do 2 apply reachable_step. apply reachable_empty.
  - vm_compute. reflexivity.
  - vm_compute. reflexivity.
Defined.

(** Registration round trip: after a Welcome reply the sender's row holds
    exactly the welcomed name, every other sender's row is as before, and
    no expense row changes. *)
Theorem webhook_register_lookup (d d' : db) (body from nm : text) :
  webhook d body from = (Welcome nm, d') ->
  get_partner d' (remove_all (str "whatsapp:") from) = Some nm /\
  (forall k, k <> remove_all (str "whatsapp:") from -> get_partner d' k = get_partner d k) /\
  expenses d' = expenses d /\ next_id d' = next_id d.
Proof.
  webhook_outcome d body from; intros H; inversion H; subst; clear H.
  unfold get_partner. simpl. rewrite lookup_insert_eq.
  split; [reflexivity|]. split; [|split; reflexivity].
  intros k Hk. rewrite lookup_insert_ne; [reflexivity|].
  intros Heq. apply Hk. symmetry. exact Heq.
Qed.

Lemma webhook_register_lookup_witness :
  get_partner (snd (webhook asha_db (str "register Asha Verma") (str "whatsapp:+911")))
    (str "+911") = Some (str "Asha Verma").
Proof.
  apply (webhook_register_lookup asha_db _ (str "register Asha Verma") (str "whatsapp:+911")).
  vm_compute. reflexivity.
Defined.



(** ** What a call writes *)

(** The registry changes only on a Welcome reply and the expense table
    only on a Recorded reply, which appends exactly one row carrying the
    reply's id, amount, category and partner. *)
Theorem webhook_frame (d : db) (body from : text) :
  ((forall n, fst (webhook d body from) <> Welcome n) ->
   partners (snd (webhook d body from)) = partners d) /\
  ((forall eid a c p, fst (webhook d body from) <> Recorded eid a c p) ->
   expenses (snd (webhook d body from)) = expenses d /\
   next_id (snd (webhook d body from)) = next_id d) /\
  (forall eid a c p, fst (webhook d body from) = Recorded eid a c p ->
   eid = next_id d /\ next_id (snd (webhook d body from)) = next_id d + 1 /\
   expenses (snd (webhook d body from)) =
     expenses d ++ [Expense eid a c (strip body) p (remove_all (str "whatsapp:") from)]).
Proof.
  webhook_outcome d body from;
    (split; [intros Hn | split; [intros Hn | intros eid a c p He]]);
    try (split; reflexivity); try reflexivity; try discriminate.
  - exfalso. exact (Hn name eq_refl).
  - exfalso. exact (Hn _ _ _ _ eq_refl).
  - injection He as <- <- <- <-. split; [reflexivity | split; reflexivity].
Qed.

Lemma webhook_frame_witness :
  partners (snd (webhook asha_db (str "Lunch 300") (str "whatsapp:+911"))) = partners asha_db.
Proof.
  apply (proj1 (webhook_frame asha_db (str "Lunch 300") (str "whatsapp:+911"))).
  vm_compute. intros n H. discriminate H.
Defined.

(** ** Dashboard totals *)











(** ** Category labels *)













(** ** Captures come from the searched text *)










Lemma category_label_table :
  map (fun c => format_cat (str c)) (map fst CATEGORIES ++ ["uncategorized"%string]) =
    [str "Rent"; str "Travel"; str "Food"; str "Partner Loan"; str "Business Purchase";
     str "Client Acquisition"; str "Uncategorized"].
Proof. vm_compute. reflexivity. Qed.

(** On a store the webhook produced, each dashboard row shows the stored
    description and partner name (never the 'Unknown' fallback) and one of
    the seven category labels. *)
Theorem reachable_dashboard_rows (d : db) :
  reachable d -> forall e, In e (expenses d) ->
  dashboard_row e =
    (e_amount e, e_category e, format_cat (str (e_category e)), e_description e,
     e_partner_name e) /\
  In (format_cat (str (e_category e)))
     [str "Rent"; str "Travel"; str "Food"; str "Partner Loan"; str "Business Purchase";
      str "Client Acquisition"; str "Uncategorized"].
Proof.
  intros Hr e Hin. destruct (rows_ok_of_reachable d Hr e Hin) as (_ & Hc & Hp & _).
  split.
  - unfold dashboard_row. destruct (e_partner_name e); [congruence | reflexivity].
  - rewrite <- category_label_table.
    apply (in_map (fun c => format_cat (str c))). exact Hc.
Qed.

Lemma reachable_dashboard_rows_witness :
  dashboard_row (Expense 1 50000 "rent" (str "Paid 500 rent") (str "Asha") (str "+911")) =
    (50000, "rent"%string, str "Rent", str "Paid 500 rent", str "Asha").
Proof.
  refine (proj1 (reachable_dashboard_rows two_step_db _ _ _)).
  - do 2 apply reachable_step. apply reachable_empty.
  - vm_compute. left. reflexivity.
Defined.
